(** * The employee service: request handlers of [main.py] over the [database] module

  [main.py] defines a FastAPI application with one startup hook and five
  request handlers.  Every handler makes one call into the module
  [database] and turns its result into a return value or into
  [HTTPException(status_code=404, detail="Employee not found")].

  The development has four layers:
  - [models]: the [Employee] entity;
  - [database]: the operations the handlers call, as a signature, and what
    an implementation of that signature is;
  - [main]: the handlers, written as programs over the signature, together
    with the part of FastAPI they rely on (routes, hooks, responses);
  - [SpecStore]: an implementation of [database] that follows the
    specification, used where a property depends on what the store does.

  What a handler does with the result of its call is proved for every
  implementation of [database]; what a sequence of requests yields is
  proved on [SpecStore]. *)

From Stdlib Require Import ZArith String List Bool Lia.
Import ListNotations.

#[local] Set Warnings "-register-all".

Open Scope string_scope.
Open Scope list_scope.
Open Scope Z_scope.

(* ===================================================================== *)
(** ** models *)
(* ===================================================================== *)

Module models.

(** Modelled from the spec: the class [Employee] of the module [models],
    which [main.py] imports and which is not among the sources.  The spec
    gives it three attributes, [id] (integer, assigned by the store),
    [name] and [department] (text); a request body for create may omit
    [id], hence the [option]. *)
Record Employee : Type := mkEmployee
  { id : option Z;
    name : string;
    department : string }.

End models.
Export models.

(* ===================================================================== *)
(** ** database: the signature the handlers call *)
(* ===================================================================== *)

Module database.

(** One constructor per function of [database] called in [main.py], with
    the arguments of the call. *)
Inductive op : Type :=
| create_table
| get_employees (skip limit : Z)
| get_employee (employee_id : Z)
| insert_employee (employee : Employee)
| delete_employee (employee_id : Z)
| update_employee (employee_id : Z) (column new_value : string).

(** What each call hands back to the handler: [get_employee] is tested
    against [None], [delete_employee] and [update_employee] are tested for
    truth, the other results are returned as they are. *)
Definition returns (c : op) : Type :=
  match c with
  | create_table => unit
  | get_employees _ _ => list Employee
  | get_employee _ => option Employee
  | insert_employee _ => Employee
  | delete_employee _ => bool
  | update_employee _ _ _ => bool
  end.

(** A call either returns a value or raises: a Python exception coming
    out of the store (a storage fault) is not caught by any handler. *)
Inductive result (X : Type) : Type :=
| Value (x : X)
| Fault (msg : string).
Arguments Value {X} x.
Arguments Fault {X} msg.

(** An implementation of the module: a type of store states and, for each
    call, the result and the next state. *)
Record Database : Type := mkDatabase
  { db : Type;
    exec : forall c : op, db -> result (returns c) * db }.

End database.
Import database(Database, db, exec, Value, Fault).

(* ===================================================================== *)
(** ** Handler programs *)
(* ===================================================================== *)

(** A handler body: it returns, raises [HTTPException], or calls into
    [database] and goes on with the value it gets. *)
Inductive prog (A : Type) : Type :=
| Ret (a : A)
| Raise (status_code : Z) (detail : string)
| Call (c : database.op) (k : database.returns c -> prog A).
Arguments Ret {A} a.
Arguments Raise {A} status_code detail.
Arguments Call {A} c k.

Declare Scope prog_scope.
Delimit Scope prog_scope with prog.
Notation "x <- c ;; k" := (Call c (fun x => k))
  (at level 61, c at next level, right associativity) : prog_scope.
Notation "c ;; k" := (Call c (fun _ => k))
  (at level 61, right associativity) : prog_scope.

(** How a handler ends: with a return value, with the [HTTPException] it
    raised, or with an exception of the store passing through it. *)
Inductive outcome (A : Type) : Type :=
| Return (a : A)
| HTTPException (status_code : Z) (detail : string)
| Propagated (msg : string).
Arguments Return {A} a.
Arguments HTTPException {A} status_code detail.
Arguments Propagated {A} msg.

(** Running a handler against an implementation of [database]: how it ends,
    the store it leaves, and the calls into [database] it made, in order. *)
Fixpoint run (D : Database) {A : Type} (p : prog A) (s : db D)
  : outcome A * db D * list database.op :=
  match p with
  | Ret a => (Return a, s, [])
  | Raise status_code detail => (HTTPException status_code detail, s, [])
  | Call c k =>
      match exec D c s with
      | (Value x, s') =>
          let '(o, s'', calls) := run D (k x) s' in (o, s'', c :: calls)
      | (Fault msg, s') => (Propagated msg, s', [c])
      end
  end.

Definition ending {A S : Type} (r : outcome A * S * list database.op) : outcome A :=
  fst (fst r).
Definition store_after {A S : Type} (r : A * S * list database.op) : S :=
  snd (fst r).
Definition calls {A S : Type} (r : A * S * list database.op) : list database.op :=
  snd r.

(** Post-processing of a handler's return value. *)
Fixpoint fmap {A B : Type} (f : A -> B) (p : prog A) : prog B :=
  match p with
  | Ret a => Ret (f a)
  | Raise status_code detail => Raise status_code detail
  | Call c k => Call c (fun x => fmap f (k x))
  end.

(* ===================================================================== *)
(** ** The part of FastAPI the application relies on *)
(* ===================================================================== *)

(** JSON values, as far as the application produces them. *)
Inductive json : Type :=
| JNull
| JInt (n : Z)
| JStr (s : string)
| JArr (items : list json)
| JObj (fields : list (string * json)).

Definition employee_json (e : Employee) : json :=
  JObj [("id", match id e with Some n => JInt n | None => JNull end);
        ("name", JStr (name e));
        ("department", JStr (department e))].

Definition employees_json (l : list Employee) : json :=
  JArr (map employee_json l).

Definition dict_json (d : list (string * string)) : json :=
  JObj (map (fun kv => (fst kv, JStr (snd kv))) d).

Record Response : Type := mkResponse
  { status : Z;
    content : json }.

(** What the client receives: 200 and the serialised return value; for
    [HTTPException] its status code and [{"detail": detail}]; for any other
    exception the generic server error. *)
Definition respond (o : outcome json) : Response :=
  match o with
  | Return body => mkResponse 200 body
  | HTTPException status_code detail =>
      mkResponse status_code (JObj [("detail", JStr detail)])
  | Propagated _ => mkResponse 500 (JStr "Internal Server Error")
  end.

(* ===================================================================== *)
(** ** main *)
(* ===================================================================== *)

Module main.

Local Open Scope prog_scope.

(** [@app.on_event("startup")] *)
Definition startup_event : prog unit :=
  database.create_table ;;
  Ret tt.

(** [@app.get("/employees/")]; an omitted argument ([None]) takes its
    default, [skip = 0] and [limit = 10]. *)
Definition read_employees (skip limit : option Z) : prog (list Employee) :=
  let skip := match skip with Some n => n | None => 0 end in
  let limit := match limit with Some n => n | None => 10 end in
  r <- database.get_employees skip limit ;;
  Ret r.

(** [@app.get("/employees/{employee_id}")] *)
Definition read_employee (employee_id : Z) : prog Employee :=
  employee <- database.get_employee employee_id ;;
  match employee with
  | None => Raise 404 "Employee not found"
  | Some e => Ret e
  end.

(** [@app.post("/employees/")] *)
Definition create_employee (employee : Employee) : prog Employee :=
  r <- database.insert_employee employee ;;
  Ret r.

(** [@app.delete("/employees/{employee_id}")] *)
Definition delete_employee (employee_id : Z) : prog (list (string * string)) :=
  ok <- database.delete_employee employee_id ;;
  if negb ok then Raise 404 "Employee not found"
  else Ret [("message", "Employee deleted")].

(** [@app.put("/employees/{employee_id}/{column}/{new_value}")] *)
Definition update_employee (employee_id : Z) (column new_value : string)
  : prog (list (string * string)) :=
  ok <- database.update_employee employee_id column new_value ;;
  if negb ok then Raise 404 "Employee not found"
  else Ret [("message", "Employee updated")].

(** The hooks registered with [@app.on_event], by event name. *)
Definition on_event : list (string * prog unit) :=
  [("startup", startup_event)].

(** A request that matched one of the five routes, its path, query and body
    parameters parsed to the types the handler declares. *)
Inductive request : Type :=
| GET_employees (skip limit : option Z)
| GET_employee (employee_id : Z)
| POST_employees (employee : Employee)
| DELETE_employee (employee_id : Z)
| PUT_employee (employee_id : Z) (column new_value : string).

(** The route table: the handler a request is given to, its return value
    serialised ([response_model] for the three employee routes). *)
Definition route (req : request) : prog json :=
  match req with
  | GET_employees skip limit => fmap employees_json (read_employees skip limit)
  | GET_employee employee_id => fmap employee_json (read_employee employee_id)
  | POST_employees employee => fmap employee_json (create_employee employee)
  | DELETE_employee employee_id => fmap dict_json (delete_employee employee_id)
  | PUT_employee employee_id column new_value =>
      fmap dict_json (update_employee employee_id column new_value)
  end.

End main.

(* ===================================================================== *)
(** ** Serving *)
(* ===================================================================== *)

(** One request: the response sent, the store left, the calls made. *)
Definition endpoint (D : Database) (req : main.request) (s : db D)
  : Response * db D * list database.op :=
  let '(o, s', l) := run D (main.route req) s in (respond o, s', l).

Definition response {S : Type} (r : Response * S * list database.op) : Response :=
  fst (fst r).

(** The hooks registered for an event, in registration order. *)
Definition hooks (event : string) : list (prog unit) :=
  map snd (filter (fun h => String.eqb (fst h) event) main.on_event).

(** Hooks run in order; the first exception stops them. *)
Fixpoint run_hooks (D : Database) (hs : list (prog unit)) (s : db D)
  : outcome unit * db D * list database.op :=
  match hs with
  | [] => (Return tt, s, [])
  | h :: rest =>
      match run D h s with
      | (Return _, s1, l1) =>
          let '(o, s2, l2) := run_hooks D rest s1 in (o, s2, l1 ++ l2)
      | failed => failed
      end
  end.

(** Requests are served one after the other; an exception in a handler
    becomes that request's response and does not stop the server. *)
Fixpoint serve (D : Database) (reqs : list main.request) (s : db D)
  : list Response * db D * list database.op :=
  match reqs with
  | [] => ([], s, [])
  | req :: rest =>
      let '(r, s1, l1) := endpoint D req s in
      let '(rs, s2, l2) := serve D rest s1 in
      (r :: rs, s2, l1 ++ l2)
  end.

(** The life of the application: the startup hooks, then the requests, then
    the shutdown hooks.  When a startup hook fails no request is served
    ([None]). *)
Definition lifespan (D : Database) (reqs : list main.request) (s : db D)
  : option (list Response) * db D * list database.op :=
  match run_hooks D (hooks "startup") s with
  | (Return _, s1, l1) =>
      let '(rs, s2, l2) := serve D reqs s1 in
      let '(_, s3, l3) := run_hooks D (hooks "shutdown") s2 in
      (Some rs, s3, l1 ++ l2 ++ l3)
  | (_, s1, l1) => (None, s1, l1)
  end.

(* ===================================================================== *)
(** ** SpecStore: the store as the specification describes it *)
(* ===================================================================== *)

Module SpecStore.

(** Modelled from the spec: a row of the employee table, which the module
    [database] (not among the sources) owns: the columns [id] (primary key),
    [name] and [department]. *)
Record Row : Type := mkRow
  { row_id : Z;
    row_name : string;
    row_department : string }.

(** Modelled from the spec: the persisted table of the module [database]:
    its rows in table order, and the last id handed out, since ids are
    assigned monotonically and never reused after a deletion. *)
Record Table : Type := mkTable
  { rows : list Row;
    last_id : Z }.

(** Modelled from the spec: the state the module [database] keeps; [None]
    while the table has not been created. *)
Definition store : Type := option Table.

Definition to_employee (r : Row) : Employee :=
  mkEmployee (Some (row_id r)) (row_name r) (row_department r).

Definition has_id (employee_id : Z) (r : Row) : bool :=
  row_id r =? employee_id.

(** Modelled from the spec: a call of [database] on a store without the
    table is a storage fault, which reaches the caller as an exception. *)
Definition no_table {X : Type} (s : store) : database.result X * store :=
  (Fault "no such table: employees", s).

(** Modelled from the spec: [database.create_table()] ensures the table
    exists, does nothing when it is present, returns no value and does not
    fail on repeated calls. *)
Definition create_table (s : store) : database.result unit * store :=
  match s with
  | None => (Value tt, Some (mkTable [] 0))
  | Some t => (Value tt, Some t)
  end.

(** Modelled from the spec: [database.get_employees(skip, limit)] returns,
    in table order, up to [limit] employees after skipping the first
    [skip].  The spec leaves [skip < 0] and [limit <= 0] to the query
    engine; here a negative number counts as zero. *)
Definition get_employees (skip limit : Z) (s : store)
  : database.result (list Employee) * store :=
  match s with
  | None => no_table s
  | Some t =>
      (Value (map to_employee
                (firstn (Z.to_nat limit) (skipn (Z.to_nat skip) (rows t)))), s)
  end.

(** Modelled from the spec: [database.get_employee(id)] returns the
    employee with that id, or the not-found sentinel [None]; no exception
    for an absent row. *)
Definition get_employee (employee_id : Z) (s : store)
  : database.result (option Employee) * store :=
  match s with
  | None => no_table s
  | Some t =>
      (Value (option_map to_employee (find (has_id employee_id) (rows t))), s)
  end.

(** Modelled from the spec: [database.insert_employee(employee)] assigns a
    new id, whatever id the payload carries, persists the row and returns
    the stored record with the assigned id; the first insert gets id 1. *)
Definition insert_employee (employee : Employee) (s : store)
  : database.result Employee * store :=
  match s with
  | None => no_table s
  | Some t =>
      let r := mkRow (last_id t + 1) (name employee) (department employee) in
      (Value (to_employee r), Some (mkTable (rows t ++ [r]) (row_id r)))
  end.

(** Modelled from the spec: [database.delete_employee(id)] removes the row
    with that id; [true] when a row was removed, [false] when there was
    none, and no exception for a missing id. *)
Definition delete_employee (employee_id : Z) (s : store)
  : database.result bool * store :=
  match s with
  | None => no_table s
  | Some t =>
      (Value (existsb (has_id employee_id) (rows t)),
       Some (mkTable (filter (fun r => negb (has_id employee_id r)) (rows t))
                     (last_id t)))
  end.

(** Modelled from the spec: the columns an update may target, [name] and
    [department], each with the row it yields. *)
Definition set_column (column : string) : option (string -> Row -> Row) :=
  if String.eqb column "name" then
    Some (fun v r => mkRow (row_id r) v (row_department r))
  else if String.eqb column "department" then
    Some (fun v r => mkRow (row_id r) (row_name r) v)
  else None.

(** Modelled from the spec: [database.update_employee(id, column,
    new_value)] sets the named column of the row with that id; [true] when
    a row was affected, [false] otherwise.  The store does not validate
    [column]: another name goes to the query engine, which has no such
    column, and fails like any malformed input, with an exception. *)
Definition update_employee (employee_id : Z) (column new_value : string)
    (s : store) : database.result bool * store :=
  match s with
  | None => no_table s
  | Some t =>
      match set_column column with
      | None => (Fault ("no such column: " ++ column), s)
      | Some set =>
          (Value (existsb (has_id employee_id) (rows t)),
           Some (mkTable
                   (map (fun r => if has_id employee_id r
                                  then set new_value r else r) (rows t))
                   (last_id t)))
      end
  end.

(** Modelled from the spec: the module [database] as a whole. *)
Definition impl : Database :=
  database.mkDatabase store
    (fun c =>
       match c as c0 return store -> database.result (database.returns c0) * store with
       | database.create_table => create_table
       | database.get_employees skip limit => get_employees skip limit
       | database.get_employee employee_id => get_employee employee_id
       | database.insert_employee employee => insert_employee employee
       | database.delete_employee employee_id => delete_employee employee_id
       | database.update_employee employee_id column new_value =>
           update_employee employee_id column new_value
       end).

(** The table has been created. *)
Definition table_exists (s : store) : bool :=
  match s with Some _ => true | None => false end.

(** The table holds a row with this id. *)
Definition has_employee (s : store) (employee_id : Z) : bool :=
  match s with
  | Some t => existsb (has_id employee_id) (rows t)
  | None => false
  end.

End SpecStore.

Arguments SpecStore.has_id : simpl never.

(* ===================================================================== *)
(** ** Responses and sample data used in the statements *)
(* ===================================================================== *)

(** The response to [HTTPException(status_code=404, detail="Employee not found")]. *)
Definition not_found : Response :=
  mkResponse 404 (JObj [("detail", JStr "Employee not found")]).

(** The response to a returned [{"message": text}]. *)
Definition message (text : string) : Response :=
  mkResponse 200 (JObj [("message", JStr text)]).

(** The id a request is about, for the three routes with [{employee_id}]. *)
Definition target (req : main.request) : option Z :=
  match req with
  | main.GET_employee employee_id
  | main.DELETE_employee employee_id
  | main.PUT_employee employee_id _ _ => Some employee_id
  | main.GET_employees _ _ | main.POST_employees _ => None
  end.

(** The call into [database] the handler of a request makes. *)
Definition store_call (req : main.request) : database.op :=
  match req with
  | main.GET_employees skip limit =>
      database.get_employees (match skip with Some n => n | None => 0 end)
                             (match limit with Some n => n | None => 10 end)
  | main.GET_employee employee_id => database.get_employee employee_id
  | main.POST_employees employee => database.insert_employee employee
  | main.DELETE_employee employee_id => database.delete_employee employee_id
  | main.PUT_employee employee_id column new_value =>
      database.update_employee employee_id column new_value
  end.

(** A table with two employees. *)
Definition two_rows : SpecStore.Table :=
  SpecStore.mkTable
    [SpecStore.mkRow 1 "Ann" "Eng"; SpecStore.mkRow 2 "Bob" "Ops"] 2.

(** A table with one more row than [two_rows]. *)
Definition three_rows : SpecStore.Table :=
  SpecStore.mkTable
    [SpecStore.mkRow 1 "Ann" "Eng"; SpecStore.mkRow 2 "Bob" "Ops";
     SpecStore.mkRow 5 "Cy" "Eng"] 5.

(** A row after [name] has been set to [v] where the id is [employee_id]. *)
Definition renamed_row (employee_id : Z) (v : string) (r : SpecStore.Row)
  : SpecStore.Row :=
  if SpecStore.has_id employee_id r
  then SpecStore.mkRow (SpecStore.row_id r) v (SpecStore.row_department r)
  else r.

(** The same on an employee as the handlers return it: only [name]
    changes, and only for the employee with that id. *)
Definition renamed (employee_id : Z) (v : string) (e : Employee) : Employee :=
  match id e with
  | Some n => if n =? employee_id then mkEmployee (id e) v (department e) else e
  | None => e
  end.

(* ===================================================================== *)
(** ** The handlers, for any implementation of [database] *)
(* ===================================================================== *)

Lemma employee_json_inj (e e' : Employee) :
  employee_json e = employee_json e' -> e = e'.
Proof.
  destruct e as [i n d], e' as [i' n' d']; unfold employee_json; simpl.
  intros H. injection H as Hi Hn Hd. subst.
  destruct i, i'; try discriminate; try reflexivity.
  injection Hi as ->. reflexivity.
Qed.

(** Case analysis on what the store answers to the one call of a handler. *)
Ltac store_answer D c s :=
  unfold endpoint, response, ending, calls, store_after, not_found, message;
  simpl;
  let x := fresh "x" in
  let msg := fresh "msg" in
  let s' := fresh "s'" in
  destruct (exec D c s) as [[x | msg] s']; simpl.

(** C2: for every id, the get-one handler returns the employee (HTTP 200
    with the record) exactly when [database.get_employee] returns a record,
    and raises [HTTPException] 404 "Employee not found" exactly when it
    returns [None]; an absent row is surfaced in no other way. *)
Theorem read_employee_200_or_404 :
  forall (D : Database) (s : db D) (employee_id : Z),
    (forall e,
        ending (run D (main.read_employee employee_id) s) = Return e
        <-> fst (exec D (database.get_employee employee_id) s) = Value (Some e))
    /\ (ending (run D (main.read_employee employee_id) s)
          = HTTPException 404 "Employee not found"
        <-> fst (exec D (database.get_employee employee_id) s) = Value None)
    /\ (forall e,
           response (endpoint D (main.GET_employee employee_id) s)
             = mkResponse 200 (employee_json e)
           <-> fst (exec D (database.get_employee employee_id) s) = Value (Some e))
    /\ (response (endpoint D (main.GET_employee employee_id) s) = not_found
        <-> fst (exec D (database.get_employee employee_id) s) = Value None).
Proof.
  intros D s employee_id.
  repeat split;
    store_answer D (database.get_employee employee_id) s;
    try destruct x as [e0 |]; simpl; intros H;
    try discriminate H; try reflexivity.
  - injection H as ->. reflexivity.
  - injection H as ->. reflexivity.
  - apply (f_equal content) in H. apply employee_json_inj in H.
    subst. reflexivity.
  - injection H as ->. reflexivity.
Qed.

(** C3: for every id, the delete handler returns [{"message": "Employee
    deleted"}] (HTTP 200) exactly when [database.delete_employee] returns
    true, and raises [HTTPException] 404 "Employee not found" exactly when
    it returns false; a missing id raises nothing else. *)
Theorem delete_employee_200_or_404 :
  forall (D : Database) (s : db D) (employee_id : Z),
    (ending (run D (main.delete_employee employee_id) s)
       = Return [("message", "Employee deleted")]
     <-> fst (exec D (database.delete_employee employee_id) s) = Value true)
    /\ (ending (run D (main.delete_employee employee_id) s)
          = HTTPException 404 "Employee not found"
        <-> fst (exec D (database.delete_employee employee_id) s) = Value false)
    /\ (response (endpoint D (main.DELETE_employee employee_id) s)
          = message "Employee deleted"
        <-> fst (exec D (database.delete_employee employee_id) s) = Value true)
    /\ (response (endpoint D (main.DELETE_employee employee_id) s) = not_found
        <-> fst (exec D (database.delete_employee employee_id) s) = Value false).
Proof.
  intros D s employee_id.
  repeat split;
    store_answer D (database.delete_employee employee_id) s;
    try destruct x; simpl; intros H;
    solve [discriminate H | reflexivity].
Qed.

(** C4: for every id, column and new value, the update handler returns
    [{"message": "Employee updated"}] (HTTP 200) exactly when
    [database.update_employee] returns true, and raises [HTTPException] 404
    "Employee not found" exactly when it returns false. *)
Theorem update_employee_200_or_404 :
  forall (D : Database) (s : db D) (employee_id : Z) (column new_value : string),
    (ending (run D (main.update_employee employee_id column new_value) s)
       = Return [("message", "Employee updated")]
     <-> fst (exec D (database.update_employee employee_id column new_value) s)
           = Value true)
    /\ (ending (run D (main.update_employee employee_id column new_value) s)
          = HTTPException 404 "Employee not found"
        <-> fst (exec D (database.update_employee employee_id column new_value) s)
              = Value false)
    /\ (response (endpoint D (main.PUT_employee employee_id column new_value) s)
          = message "Employee updated"
        <-> fst (exec D (database.update_employee employee_id column new_value) s)
              = Value true)
    /\ (response (endpoint D (main.PUT_employee employee_id column new_value) s)
          = not_found
        <-> fst (exec D (database.update_employee employee_id column new_value) s)
              = Value false).
Proof.
  intros D s employee_id column new_value.
  repeat split;
    store_answer D (database.update_employee employee_id column new_value) s;
    try destruct x; simpl; intros H;
    solve [discriminate H | reflexivity].
Qed.

(** C1, as stated, fails: the path segment "salary" is neither "name" nor
    "department", and the update handler still calls
    [database.update_employee] with it; what the client gets is the store's
    own failure, not a rejection by the handler. *)
Lemma update_employee_other_column_reaches_store :
  "salary" <> "name" /\ "salary" <> "department"
  /\ calls (run SpecStore.impl (main.update_employee 1 "salary" "100")
              (Some two_rows))
     = [database.update_employee 1 "salary" "100"]
  /\ ending (run SpecStore.impl (main.update_employee 1 "salary" "100")
               (Some two_rows))
     = Propagated "no such column: salary".
Proof.
  repeat split; try discriminate; reflexivity.
Qed.

(** C1, amended: for every update request the handler checks nothing about
    [column]: whatever string the path segment is, the one call it makes is
    [database.update_employee] with the id, the column and the new value
    unchanged, and it raises [HTTPException] only when that call returned
    false. *)
Theorem update_employee_forwards_any_column :
  forall (D : Database) (s : db D) (employee_id : Z) (column new_value : string),
    calls (run D (main.update_employee employee_id column new_value) s)
      = [database.update_employee employee_id column new_value]
    /\ calls (endpoint D (main.PUT_employee employee_id column new_value) s)
         = [database.update_employee employee_id column new_value]
    /\ (forall status_code detail,
           ending (run D (main.update_employee employee_id column new_value) s)
             = HTTPException status_code detail ->
           fst (exec D (database.update_employee employee_id column new_value) s)
             = Value false).
Proof.
  intros D s employee_id column new_value.
  repeat split;
    store_answer D (database.update_employee employee_id column new_value) s;
    try destruct x; simpl; try reflexivity; intros sc d H; discriminate H.
Qed.

(** C10: for every payload, with or without an id of the client's, the
    create handler calls [database.insert_employee] with that very payload
    and nothing else, and returns what the call returned, which becomes the
    body of the HTTP 200 response; a failure of the store passes through. *)
Theorem create_employee_forwards_verbatim :
  forall (D : Database) (s : db D) (employee : Employee),
    calls (run D (main.create_employee employee) s)
      = [database.insert_employee employee]
    /\ (forall stored s',
           exec D (database.insert_employee employee) s = (Value stored, s') ->
           run D (main.create_employee employee) s
             = (Return stored, s', [database.insert_employee employee])
           /\ endpoint D (main.POST_employees employee) s
              = (mkResponse 200 (employee_json stored), s',
                 [database.insert_employee employee]))
    /\ (forall msg s',
           exec D (database.insert_employee employee) s = (Fault msg, s') ->
           run D (main.create_employee employee) s
             = (Propagated msg, s', [database.insert_employee employee])).
Proof.
  intros D s employee. unfold endpoint, calls. simpl.
  split; [| split].
  - destruct (exec D (database.insert_employee employee) s) as [[x | msg] s'];
      reflexivity.
  - intros stored s' H. rewrite H. split; reflexivity.
  - intros msg s' H. rewrite H. reflexivity.
Qed.

(* ===================================================================== *)
(** ** The one kind of error *)
(* ===================================================================== *)

Ltac one_call D s :=
  match goal with
  | |- context [exec D ?c s] =>
      let x := fresh "x" in
      let msg := fresh "msg" in
      let s' := fresh "s'" in
      destruct (exec D c s) as [[x | msg] s']; simpl; try destruct x; simpl
  end.

Lemma handlers_raise_only_not_found (D : Database) (req : main.request)
    (s : db D) (status_code : Z) (detail : string) :
  ending (run D (main.route req) s) = HTTPException status_code detail ->
  status_code = 404 /\ detail = "Employee not found" /\ target req <> None.
Proof.
  unfold ending.
  destruct req; simpl; one_call D s; intros H;
    try discriminate H; injection H as <- <-;
    repeat split; discriminate.
Qed.

Lemma has_employee_find (t : SpecStore.Table) (employee_id : Z) :
  SpecStore.has_employee (Some t) employee_id = false <->
  find (SpecStore.has_id employee_id) (SpecStore.rows t) = None.
Proof.
  simpl. induction (SpecStore.rows t) as [| r l IH]; simpl.
  - tauto.
  - destruct (SpecStore.has_id employee_id r); simpl.
    + split; discriminate.
    + exact IH.
Qed.

Lemma not_found_only_for_absent_id (req : main.request) (s : SpecStore.store) :
  status (response (endpoint SpecStore.impl req s)) = 404 ->
  response (endpoint SpecStore.impl req s) = not_found
  /\ exists employee_id,
      target req = Some employee_id
      /\ SpecStore.has_employee s employee_id = false.
Proof.
  unfold endpoint, response, not_found.
  destruct req as [skip limit | employee_id | employee | employee_id
                  | employee_id column new_value];
    destruct s as [t |]; simpl; try discriminate.
  - destruct (find (SpecStore.has_id employee_id) (SpecStore.rows t)) eqn:E;
      simpl; try discriminate.
    intros _. split; [reflexivity |].
    exists employee_id. split; [reflexivity |].
    apply has_employee_find. exact E.
  - destruct (existsb (SpecStore.has_id employee_id) (SpecStore.rows t)) eqn:E;
      simpl; try discriminate.
    intros _. split; [reflexivity |]. exists employee_id. split; trivial.
  - destruct (SpecStore.set_column column) as [set |]; simpl; try discriminate.
    destruct (existsb (SpecStore.has_id employee_id) (SpecStore.rows t)) eqn:E;
      simpl; try discriminate.
    intros _. split; [reflexivity |]. exists employee_id. split; trivial.
Qed.

(** C5: the handlers raise one kind of error.  For every request and every
    implementation of [database], an [HTTPException] raised by a handler is
    404 "Employee not found" and comes from the get-one, delete or update
    handler; the list and create handlers raise none.  On the store of the
    specification a 404 response is that "Employee not found" response and
    is sent only when the table has no row with the id of the request. *)
Theorem only_error_is_employee_not_found :
  (forall (D : Database) (req : main.request) (s : db D)
          (status_code : Z) (detail : string),
      ending (run D (main.route req) s) = HTTPException status_code detail ->
      status_code = 404 /\ detail = "Employee not found" /\ target req <> None)
  /\ (forall (D : Database) (s : db D) (skip limit : option Z)
             (status_code : Z) (detail : string),
         ending (run D (main.read_employees skip limit) s)
           <> HTTPException status_code detail)
  /\ (forall (D : Database) (s : db D) (employee : Employee)
             (status_code : Z) (detail : string),
         ending (run D (main.create_employee employee) s)
           <> HTTPException status_code detail)
  /\ (forall (req : main.request) (s : SpecStore.store),
         status (response (endpoint SpecStore.impl req s)) = 404 ->
         response (endpoint SpecStore.impl req s) = not_found
         /\ exists employee_id,
             target req = Some employee_id
             /\ SpecStore.has_employee s employee_id = false).
Proof.
  split; [| split; [| split]].
  - exact handlers_raise_only_not_found.
  - intros D s skip limit sc d. unfold ending. simpl.
    one_call D s; discriminate.
  - intros D s employee sc d. unfold ending. simpl.
    one_call D s; discriminate.
  - exact not_found_only_for_absent_id.
Qed.

(* ===================================================================== *)
(** ** The list *)
(* ===================================================================== *)

Lemma page_length (t : SpecStore.Table) (skip limit : Z) :
  0 <= limit ->
  Z.of_nat
    (length
       (map SpecStore.to_employee
          (firstn (Z.to_nat limit) (skipn (Z.to_nat skip) (SpecStore.rows t)))))
  <= limit.
Proof.
  intros H. rewrite length_map.
  pose proof (firstn_le_length (Z.to_nat limit)
                (skipn (Z.to_nat skip) (SpecStore.rows t))) as Hle.
  lia.
Qed.

(** C6, as stated, fails at [limit = -1]: the list handler returns a
    sequence, and no sequence has at most -1 records. *)
Lemma read_employees_negative_limit :
  exists l : list Employee,
    ending (run SpecStore.impl (main.read_employees None (Some (-1)))
              (Some two_rows)) = Return l
    /\ ~ (Z.of_nat (length l) <= -1).
Proof.
  exists []. split; [reflexivity | simpl; lia].
Qed.

(** C6, amended: an omitted [skip] is 0 and an omitted [limit] is 10; the
    list handler makes the one call [database.get_employees(skip, limit)]
    and, whether both, one or none of the two parameters is given, returns
    exactly the sequence that call returned, as the body of the HTTP 200
    response (an exception of the call passes through); and on the store of
    the specification, for every [N >= 0], a call with [limit = N] returns
    at most [N] records. *)
Theorem read_employees_defaults_and_page :
  (forall (D : Database) (s : db D) (skip limit : Z),
      calls (run D (main.read_employees None None) s)
        = [database.get_employees 0 10]
      /\ calls (run D (main.read_employees (Some skip) None) s)
           = [database.get_employees skip 10]
      /\ calls (run D (main.read_employees None (Some limit)) s)
           = [database.get_employees 0 limit]
      /\ calls (run D (main.read_employees (Some skip) (Some limit)) s)
           = [database.get_employees skip limit])
  /\ (forall (D : Database) (s s' : db D) (skip limit : Z) (l : list Employee),
         exec D (database.get_employees skip limit) s = (Value l, s') ->
         run D (main.read_employees (Some skip) (Some limit)) s
           = (Return l, s', [database.get_employees skip limit])
         /\ response (endpoint D (main.GET_employees (Some skip) (Some limit)) s)
            = mkResponse 200 (employees_json l))
  /\ (forall (D : Database) (s s' : db D) (skip : Z) (l : list Employee),
         exec D (database.get_employees skip 10) s = (Value l, s') ->
         run D (main.read_employees (Some skip) None) s
           = (Return l, s', [database.get_employees skip 10])
         /\ response (endpoint D (main.GET_employees (Some skip) None) s)
            = mkResponse 200 (employees_json l))
  /\ (forall (D : Database) (s s' : db D) (limit : Z) (l : list Employee),
         exec D (database.get_employees 0 limit) s = (Value l, s') ->
         run D (main.read_employees None (Some limit)) s
           = (Return l, s', [database.get_employees 0 limit])
         /\ response (endpoint D (main.GET_employees None (Some limit)) s)
            = mkResponse 200 (employees_json l))
  /\ (forall (D : Database) (s s' : db D) (l : list Employee),
         exec D (database.get_employees 0 10) s = (Value l, s') ->
         run D (main.read_employees None None) s
           = (Return l, s', [database.get_employees 0 10])
         /\ response (endpoint D (main.GET_employees None None) s)
            = mkResponse 200 (employees_json l))
  /\ (forall (D : Database) (s s' : db D) (skip limit : option Z) (msg : string),
         exec D (database.get_employees
                   (match skip with Some n => n | None => 0 end)
                   (match limit with Some n => n | None => 10 end)) s
           = (Fault msg, s') ->
         ending (run D (main.read_employees skip limit) s) = Propagated msg)
  /\ (forall (s : SpecStore.store) (skip : option Z) (N : Z) (l : list Employee),
         0 <= N ->
         ending (run SpecStore.impl (main.read_employees skip (Some N)) s)
           = Return l ->
         Z.of_nat (length l) <= N).
Proof.
  split; [| split; [| split; [| split; [| split; [| split]]]]].
  - intros D s skip limit. unfold calls. simpl.
    repeat split; one_call D s; reflexivity.
  - intros D s s' skip limit l H. unfold endpoint, response. simpl.
    rewrite H. split; reflexivity.
  - intros D s s' skip l H. unfold endpoint, response. simpl.
    rewrite H. split; reflexivity.
  - intros D s s' limit l H. unfold endpoint, response. simpl.
    rewrite H. split; reflexivity.
  - intros D s s' l H. unfold endpoint, response. simpl.
    rewrite H. split; reflexivity.
  - intros D s s' [skip |] [limit |] msg H; unfold ending; simpl in *;
      rewrite H; reflexivity.
  - intros s skip N l HN. unfold ending.
    destruct s as [t |]; simpl; [| discriminate].
    intros H. injection H as <-. apply page_length. exact HN.
Qed.

(* ===================================================================== *)
(** ** Update of a name, then read *)
(* ===================================================================== *)

Section UpdateName.

Variable employee_id : Z.
Variable v : string.

Let renamed_r := renamed_row employee_id v.

Lemma has_id_renamed (other : Z) (r : SpecStore.Row) :
  SpecStore.has_id other (renamed_r r) = SpecStore.has_id other r.
Proof.
  unfold renamed_r, renamed_row.
  destruct (SpecStore.has_id employee_id r); reflexivity.
Qed.

Lemma find_renamed (other : Z) (l : list SpecStore.Row) :
  find (SpecStore.has_id other) (map renamed_r l)
  = option_map renamed_r (find (SpecStore.has_id other) l).
Proof.
  induction l as [| r l IH]; simpl; trivial.
  rewrite has_id_renamed.
  destruct (SpecStore.has_id other r); [reflexivity | exact IH].
Qed.

Lemma find_has_id (other : Z) (l : list SpecStore.Row) (r : SpecStore.Row) :
  find (SpecStore.has_id other) l = Some r -> SpecStore.has_id other r = true.
Proof.
  intros H. apply find_some in H. apply H.
Qed.

Lemma existsb_find (other : Z) (l : list SpecStore.Row) (r : SpecStore.Row) :
  find (SpecStore.has_id other) l = Some r ->
  existsb (SpecStore.has_id other) l = true.
Proof.
  intros H. apply existsb_exists. exists r.
  apply find_some in H. exact H.
Qed.

Lemma renamed_other (other : Z) (r : SpecStore.Row) :
  other <> employee_id -> SpecStore.has_id other r = true -> renamed_r r = r.
Proof.
  unfold renamed_r, renamed_row, SpecStore.has_id. intros Hne H.
  apply Z.eqb_eq in H.
  destruct (SpecStore.row_id r =? employee_id) eqn:E; trivial.
  apply Z.eqb_eq in E. congruence.
Qed.

End UpdateName.

Lemma to_employee_renamed (employee_id : Z) (v : string) (r : SpecStore.Row) :
  SpecStore.to_employee (renamed_row employee_id v r)
  = renamed employee_id v (SpecStore.to_employee r).
Proof.
  unfold renamed_row, renamed, SpecStore.to_employee, SpecStore.has_id. simpl.
  destruct (SpecStore.row_id r =? employee_id); reflexivity.
Qed.

Lemma page_renamed (employee_id : Z) (v : string) (n m : nat)
    (l : list SpecStore.Row) :
  map SpecStore.to_employee
      (firstn n (skipn m (map (renamed_row employee_id v) l)))
  = map (renamed employee_id v)
        (map SpecStore.to_employee (firstn n (skipn m l))).
Proof.
  rewrite skipn_map, firstn_map, !map_map.
  apply map_ext. intros r. apply to_employee_renamed.
Qed.

(** C8: on the store of the specification, for every id the table has a
    row for, with record [e], and every value [v], the request that sets
    [name] to [v] is answered 200 "Employee updated" and the get-one request
    that follows returns [e] with [name = v], its [id] and [department] as
    they were.  Nothing else changes: every other id reads as before, and
    every page of the list is the page of before with that one name
    replaced. *)
Theorem update_name_then_read :
  forall (s : SpecStore.store) (employee_id : Z) (v : string) (e : Employee),
    ending (run SpecStore.impl (main.read_employee employee_id) s) = Return e ->
    exists s' : SpecStore.store,
      serve SpecStore.impl
        [main.PUT_employee employee_id "name" v; main.GET_employee employee_id] s
      = ([message "Employee updated";
          mkResponse 200 (employee_json (mkEmployee (id e) v (department e)))],
         s',
         [database.update_employee employee_id "name" v;
          database.get_employee employee_id])
      /\ (forall other : Z,
             other <> employee_id ->
             ending (run SpecStore.impl (main.read_employee other) s')
             = ending (run SpecStore.impl (main.read_employee other) s))
      /\ (forall (skip limit : option Z) (l : list Employee),
             ending (run SpecStore.impl (main.read_employees skip limit) s)
               = Return l ->
             ending (run SpecStore.impl (main.read_employees skip limit) s')
               = Return (map (renamed employee_id v) l)).
Proof.
  intros s employee_id v e. unfold ending.
  destruct s as [t |]; simpl; [| discriminate].
  destruct (find (SpecStore.has_id employee_id) (SpecStore.rows t))
    as [r |] eqn:E; simpl; [| discriminate].
  intros H. injection H as <-.
  exists (Some (SpecStore.mkTable
                  (map (renamed_row employee_id v) (SpecStore.rows t))
                  (SpecStore.last_id t))).
  split; [| split].
  - unfold serve, endpoint. simpl.
    rewrite (existsb_find employee_id _ r E). simpl.
    fold (renamed_row employee_id v).
    rewrite find_renamed, E. simpl.
    unfold renamed_row. rewrite (find_has_id employee_id _ r E).
    reflexivity.
  - intros other Hne. simpl. rewrite find_renamed.
    destruct (find (SpecStore.has_id other) (SpecStore.rows t))
      as [r' |] eqn:E'; simpl; trivial.
    rewrite (renamed_other employee_id v other r' Hne
               (find_has_id other _ r' E')).
    reflexivity.
  - intros skip limit l H. injection H as <-. simpl.
    rewrite page_renamed. reflexivity.
Qed.

(** C8 on a table with two employees: employee 1 becomes "Anna". *)
Lemma update_name_then_read_two_rows :
  exists s' : SpecStore.store,
    serve SpecStore.impl
      [main.PUT_employee 1 "name" "Anna"; main.GET_employee 1] (Some two_rows)
    = ([message "Employee updated";
        mkResponse 200 (employee_json (mkEmployee (Some 1) "Anna" "Eng"))],
       s',
       [database.update_employee 1 "name" "Anna"; database.get_employee 1])
    /\ (forall other : Z,
           other <> 1 ->
           ending (run SpecStore.impl (main.read_employee other) s')
           = ending (run SpecStore.impl (main.read_employee other)
                       (Some two_rows)))
    /\ (forall (skip limit : option Z) (l : list Employee),
           ending (run SpecStore.impl (main.read_employees skip limit)
                     (Some two_rows)) = Return l ->
           ending (run SpecStore.impl (main.read_employees skip limit) s')
             = Return (map (renamed 1 "Anna") l)).
Proof.
  apply (update_name_then_read (Some two_rows) 1 "Anna"
           (mkEmployee (Some 1) "Ann" "Eng")).
  reflexivity.
Defined.

(* ===================================================================== *)
(** ** Startup *)
(* ===================================================================== *)

Lemma hooks_by_event (event : string) :
  hooks event = if String.eqb "startup" event then [main.startup_event] else [].
Proof.
  unfold hooks, main.on_event. cbn [filter fst snd map].
  destruct (String.eqb "startup" event); reflexivity.
Qed.

Lemma lifespan_started (D : Database) (reqs : list main.request)
    (s s1 : db D) (u : unit) :
  exec D database.create_table s = (Value u, s1) ->
  lifespan D reqs s
  = (Some (fst (fst (serve D reqs s1))),
     store_after (serve D reqs s1),
     database.create_table :: calls (serve D reqs s1)).
Proof.
  intros H. unfold lifespan, store_after, calls.
  rewrite !hooks_by_event. cbn [String.eqb Ascii.eqb Bool.eqb run_hooks].
  simpl run. simpl in H. rewrite H.
  destruct (serve D reqs s1) as [[rs s2] l2]. simpl.
  rewrite app_nil_r. reflexivity.
Qed.

Lemma lifespan_not_started (D : Database) (reqs : list main.request)
    (s s1 : db D) (msg : string) :
  exec D database.create_table s = (Fault msg, s1) ->
  lifespan D reqs s = (None, s1, [database.create_table]).
Proof.
  intros H. unfold lifespan.
  rewrite !hooks_by_event. cbn [String.eqb Ascii.eqb Bool.eqb run_hooks].
  simpl run. simpl in H. rewrite H. reflexivity.
Qed.

Lemma endpoint_keeps_table (req : main.request) (s : SpecStore.store) :
  SpecStore.table_exists s = true ->
  SpecStore.table_exists (store_after (endpoint SpecStore.impl req s)) = true.
Proof.
  destruct s as [t |]; [intros _ | discriminate].
  unfold endpoint, store_after.
  destruct req as [skip limit | employee_id | employee | employee_id
                  | employee_id column new_value]; simpl.
  - reflexivity.
  - destruct (find (SpecStore.has_id employee_id) (SpecStore.rows t));
      reflexivity.
  - reflexivity.
  - destruct (existsb (SpecStore.has_id employee_id) (SpecStore.rows t));
      reflexivity.
  - destruct (SpecStore.set_column column); simpl; trivial.
    destruct (existsb (SpecStore.has_id employee_id) (SpecStore.rows t));
      reflexivity.
Qed.

Lemma serve_keeps_table (reqs : list main.request) :
  forall s : SpecStore.store,
    SpecStore.table_exists s = true ->
    SpecStore.table_exists (store_after (serve SpecStore.impl reqs s)) = true.
Proof.
  induction reqs as [| req rest IH]; intros s Hs.
  - exact Hs.
  - pose proof (endpoint_keeps_table req s Hs) as H1.
    unfold store_after in *. simpl.
    destruct (endpoint SpecStore.impl req s) as [[r s1] l1]. simpl in H1.
    specialize (IH s1 H1).
    destruct (serve SpecStore.impl rest s1) as [[rs s2] l2]. exact IH.
Qed.

(** C9: the one hook the application registers is [startup_event], for the
    event "startup"; no hook is registered for "shutdown" or any other
    event.  The hook calls [database.create_table] and nothing else.  In
    the life of the application that call comes first: when it returns,
    the calls that follow are those of the handlers serving the requests,
    and nothing comes after them; when it fails, no request is served.  On
    the store of the specification the hook succeeds from any state and
    leaves the table created, and every request, after any requests served
    before it, finds the table created. *)
Theorem startup_creates_table_before_serving :
  (forall event : string,
      hooks event
      = if String.eqb "startup" event then [main.startup_event] else [])
  /\ hooks "shutdown" = []
  /\ (forall (D : Database) (s : db D),
         calls (run D main.startup_event s) = [database.create_table])
  /\ (forall (D : Database) (reqs : list main.request) (s s1 : db D) (u : unit),
         exec D database.create_table s = (Value u, s1) ->
         lifespan D reqs s
         = (Some (fst (fst (serve D reqs s1))),
            store_after (serve D reqs s1),
            database.create_table :: calls (serve D reqs s1)))
  /\ (forall (D : Database) (reqs : list main.request) (s s1 : db D)
             (msg : string),
         exec D database.create_table s = (Fault msg, s1) ->
         lifespan D reqs s = (None, s1, [database.create_table]))
  /\ (forall s : SpecStore.store,
         ending (run SpecStore.impl main.startup_event s) = Return tt
         /\ SpecStore.table_exists
              (store_after (run SpecStore.impl main.startup_event s)) = true)
  /\ (forall (s : SpecStore.store) (before : list main.request),
         SpecStore.table_exists
           (store_after
              (serve SpecStore.impl before
                 (store_after (run_hooks SpecStore.impl (hooks "startup") s))))
         = true).
Proof.
  split; [exact hooks_by_event |].
  split; [reflexivity |].
  split.
  { intros D s. unfold calls. simpl. one_call D s; reflexivity. }
  split; [exact lifespan_started |].
  split; [exact lifespan_not_started |].
  split.
  { intros [t |]; split; reflexivity. }
  intros s before. apply serve_keeps_table.
  destruct s as [t |]; reflexivity.
Qed.

(* ===================================================================== *)
(** ** Delete, then read *)
(* ===================================================================== *)

Lemma find_after_delete (employee_id : Z) (l : list SpecStore.Row) :
  find (SpecStore.has_id employee_id)
       (filter (fun r => negb (SpecStore.has_id employee_id r)) l) = None.
Proof.
  induction l as [| r l IH]; simpl; trivial.
  destruct (SpecStore.has_id employee_id r) eqn:E; simpl; trivial.
  rewrite E. exact IH.
Qed.

Lemma serve_app (D : Database) (a b : list main.request) :
  forall s : db D,
    serve D (a ++ b) s
    = (fst (fst (serve D a s))
         ++ fst (fst (serve D b (store_after (serve D a s)))),
       store_after (serve D b (store_after (serve D a s))),
       calls (serve D a s) ++ calls (serve D b (store_after (serve D a s)))).
Proof.
  unfold store_after, calls.
  induction a as [| req a IH]; intros s; simpl.
  - destruct (serve D b s) as [[rs s2] l2]; reflexivity.
  - destruct (endpoint D req s) as [[r s1] l1].
    rewrite IH.
    destruct (serve D a s1) as [[rs1 s2] l2]. simpl.
    destruct (serve D b s2) as [[rs2 s3] l3]. simpl.
    rewrite app_assoc. reflexivity.
Qed.

Lemma delete_then_read_served (t : SpecStore.Table) (employee_id : Z) :
  serve SpecStore.impl
    [main.DELETE_employee employee_id; main.GET_employee employee_id] (Some t)
  = ([if SpecStore.has_employee (Some t) employee_id
      then message "Employee deleted" else not_found;
      not_found],
     Some (SpecStore.mkTable
             (filter (fun r => negb (SpecStore.has_id employee_id r))
                     (SpecStore.rows t))
             (SpecStore.last_id t)),
     [database.delete_employee employee_id; database.get_employee employee_id]).
Proof.
  unfold serve, endpoint. simpl.
  destruct (existsb (SpecStore.has_id employee_id) (SpecStore.rows t));
    simpl; rewrite find_after_delete; reflexivity.
Qed.

Lemma delete_then_read_in_lifespan (s : SpecStore.store)
    (before : list main.request) (employee_id : Z) :
  exists (rs : list Response) (r : Response) (s' : SpecStore.store)
         (l : list database.op),
    lifespan SpecStore.impl
      (before ++ [main.DELETE_employee employee_id;
                  main.GET_employee employee_id]) s
    = (Some (rs ++ [r; not_found]), s',
       l ++ [database.delete_employee employee_id;
             database.get_employee employee_id]).
Proof.
  assert (Hstart : exists t0,
             exec SpecStore.impl database.create_table s = (Value tt, Some t0)).
  { destruct s as [t |]; simpl; eexists; reflexivity. }
  destruct Hstart as [t0 Hstart].
  rewrite (lifespan_started SpecStore.impl _ s (Some t0) tt Hstart).
  rewrite serve_app.
  pose proof (serve_keeps_table before (Some t0) eq_refl) as Hk.
  destruct (store_after (serve SpecStore.impl before (Some t0))) as [t1 |];
    [clear Hk | discriminate Hk].
  rewrite delete_then_read_served. unfold store_after, calls. simpl.
  eexists _, _, _, (database.create_table :: _). reflexivity.
Qed.

(** C7: on the store of the specification, once the table has been
    created, for every id the delete request followed at once by the
    get-one request for the same id is answered 404 "Employee not found",
    whether the table had a row with that id (the delete is answered 200)
    or not (the delete is answered 404 too).  So it is in every life of the
    application, from any initial store and after any requests: the
    startup hook has created the table. *)
Theorem delete_then_read_not_found :
  (forall (t : SpecStore.Table) (employee_id : Z),
      ending (run SpecStore.impl (main.read_employee employee_id)
                (store_after
                   (run SpecStore.impl (main.delete_employee employee_id)
                      (Some t))))
      = HTTPException 404 "Employee not found")
  /\ (forall (t : SpecStore.Table) (employee_id : Z),
         exists s' : SpecStore.store,
           serve SpecStore.impl
             [main.DELETE_employee employee_id; main.GET_employee employee_id]
             (Some t)
           = ([if SpecStore.has_employee (Some t) employee_id
               then message "Employee deleted" else not_found;
               not_found],
              s',
              [database.delete_employee employee_id;
               database.get_employee employee_id]))
  /\ (forall (s : SpecStore.store) (before : list main.request)
             (employee_id : Z),
         exists (rs : list Response) (r : Response) (s' : SpecStore.store)
                (l : list database.op),
           lifespan SpecStore.impl
             (before ++ [main.DELETE_employee employee_id;
                         main.GET_employee employee_id]) s
           = (Some (rs ++ [r; not_found]), s',
              l ++ [database.delete_employee employee_id;
                    database.get_employee employee_id])).
Proof.
  split; [| split].
  - intros t employee_id. unfold ending, store_after. simpl.
    destruct (existsb (SpecStore.has_id employee_id) (SpecStore.rows t));
      simpl; rewrite find_after_delete; reflexivity.
  - intros t employee_id. eexists. apply delete_then_read_served.
  - exact delete_then_read_in_lifespan.
Qed.

(* ===================================================================== *)
(** ** The scenarios of the specification, run from a store without table *)
(* ===================================================================== *)

Example scenario_first_insert :
  fst (fst (lifespan SpecStore.impl
              [main.POST_employees (mkEmployee None "Ann" "Eng")] None))
  = Some [mkResponse 200 (employee_json (mkEmployee (Some 1) "Ann" "Eng"))].
Proof. reflexivity. Qed.

Example scenario_read_on_empty_table :
  fst (fst (lifespan SpecStore.impl [main.GET_employee 999] None))
  = Some [not_found].
Proof. reflexivity. Qed.

Example scenario_delete_then_read :
  fst (fst (lifespan SpecStore.impl
              [main.POST_employees (mkEmployee None "Ann" "Eng");
               main.DELETE_employee 1;
               main.GET_employee 1] None))
  = Some [mkResponse 200 (employee_json (mkEmployee (Some 1) "Ann" "Eng"));
          message "Employee deleted";
          not_found].
Proof. reflexivity. Qed.

Example scenario_update_department :
  fst (fst (lifespan SpecStore.impl
              [main.POST_employees (mkEmployee (Some 7) "Ann" "Eng");
               main.PUT_employee 1 "department" "Sales";
               main.GET_employee 1] None))
  = Some [mkResponse 200 (employee_json (mkEmployee (Some 1) "Ann" "Eng"));
          message "Employee updated";
          mkResponse 200 (employee_json (mkEmployee (Some 1) "Ann" "Sales"))].
Proof. reflexivity. Qed.

(* ===================================================================== *)
(** ** Every handler is one call, passed through *)
(* ===================================================================== *)

Lemma endpoint_one_call (D : Database) (req : main.request) (s : db D) :
  calls (endpoint D req s) = [store_call req]
  /\ store_after (endpoint D req s) = snd (exec D (store_call req) s).
Proof.
  unfold endpoint, calls, store_after.
  destruct req as [[skip |] [limit |] | employee_id | employee | employee_id
                  | employee_id column new_value];
    simpl; one_call D s; split; reflexivity.
Qed.

Lemma store_call_not_create_table (req : main.request) :
  store_call req <> database.create_table.
Proof.
  destruct req; discriminate.
Qed.

Lemma endpoint_status (D : Database) (req : main.request) (s : db D) :
  (status (response (endpoint D req s)) = 200
   \/ status (response (endpoint D req s)) = 404
   \/ status (response (endpoint D req s)) = 500)
  /\ (status (response (endpoint D req s)) = 500
      <-> exists msg, fst (exec D (store_call req) s) = Fault msg)
  /\ (status (response (endpoint D req s)) = 404 ->
      response (endpoint D req s) = not_found /\ target req <> None).
Proof.
  unfold endpoint, response, not_found.
  destruct req as [[skip |] [limit |] | employee_id | employee | employee_id
                  | employee_id column new_value];
    simpl; one_call D s;
    (split; [auto | split; [split | ]]);
    try discriminate;
    try (intros [m Hm]; discriminate Hm);
    try (intros _; eexists; reflexivity);
    try (intros _; split; [reflexivity | discriminate]).
Qed.

Lemma serve_calls (D : Database) (reqs : list main.request) :
  forall s : db D,
    calls (serve D reqs s) = map store_call reqs
    /\ length (fst (fst (serve D reqs s))) = length reqs.
Proof.
  unfold calls.
  induction reqs as [| req rest IH]; intros s; simpl.
  - split; reflexivity.
  - pose proof (endpoint_one_call D req s) as [Hc _]. unfold calls in Hc.
    destruct (endpoint D req s) as [[r s1] l1]. simpl in Hc. subst l1.
    destruct (IH s1) as [IHc IHl].
    destruct (serve D rest s1) as [[rs s2] l2]. simpl in *.
    subst l2. rewrite IHl. split; reflexivity.
Qed.

(** X1: whatever the store answers (a value, [None], false or an
    exception), the handler of a request makes exactly one call into
    [database], the one of its route with the arguments of the request
    (defaults filled in), never [create_table]; and the store it leaves is
    the store that call left: no handler retries, looks up before it
    writes, or changes the store by itself. *)
Theorem each_request_is_one_store_call :
  forall (D : Database) (req : main.request) (s : db D),
    calls (endpoint D req s) = [store_call req]
    /\ store_after (endpoint D req s) = snd (exec D (store_call req) s)
    /\ store_call req <> database.create_table.
Proof.
  intros D req s.
  destruct (endpoint_one_call D req s) as [Hc Hs].
  split; [exact Hc | split; [exact Hs | apply store_call_not_create_table]].
Qed.

(** X2: no handler catches an exception of the store or answers with one
    of its own.  For every request that reaches a handler, that is, one
    that matched a route and whose parameters parsed to the handler's types
    ([main.request]; what FastAPI answers to other requests is not the
    handlers' doing and is not covered), the status is 200, 404 or 500; it
    is 500 exactly when the call into [database] raised; and a 404 the
    handler caused always carries the detail "Employee not found" and
    belongs to a route with an [employee_id]. *)
Theorem status_is_200_404_or_500 :
  forall (D : Database) (req : main.request) (s : db D),
    (status (response (endpoint D req s)) = 200
     \/ status (response (endpoint D req s)) = 404
     \/ status (response (endpoint D req s)) = 500)
    /\ (status (response (endpoint D req s)) = 500
        <-> exists msg, fst (exec D (store_call req) s) = Fault msg)
    /\ (status (response (endpoint D req s)) = 404 ->
        response (endpoint D req s) = not_found /\ target req <> None).
Proof.
  exact endpoint_status.
Qed.

(** X3: serving a sequence of requests makes one call into [database] per
    request, in the order of the requests and whatever the earlier ones
    were answered, and sends one response per request.  In the life of the
    application, when the startup hook succeeds, the calls are
    [create_table] once, first, and then those: no handler creates the
    table again. *)
Theorem serving_calls_one_per_request :
  (forall (D : Database) (reqs : list main.request) (s : db D),
      calls (serve D reqs s) = map store_call reqs
      /\ length (fst (fst (serve D reqs s))) = length reqs
      /\ ~ In database.create_table (calls (serve D reqs s)))
  /\ (forall (D : Database) (reqs : list main.request) (s s1 : db D) (u : unit),
         exec D database.create_table s = (Value u, s1) ->
         calls (lifespan D reqs s)
         = database.create_table :: map store_call reqs).
Proof.
  split.
  - intros D reqs s. destruct (serve_calls D reqs s) as [Hc Hl].
    split; [exact Hc | split; [exact Hl |]].
    rewrite Hc. intros Hin. apply in_map_iff in Hin.
    destruct Hin as [req [Hreq _]].
    exact (store_call_not_create_table req Hreq).
  - intros D reqs s s1 u H.
    rewrite (lifespan_started D reqs s s1 u H).
    unfold calls at 1. simpl.
    destruct (serve_calls D reqs s1) as [Hc _]. rewrite Hc. reflexivity.
Qed.

(** X4: the handlers keep nothing between requests: the response to a
    request is decided by the answer of its one call into [database]
    alone.  Two stores, of any implementations and in any states, that
    answer that call alike get the same response. *)
Theorem response_depends_on_answer_only :
  forall (D1 D2 : Database) (s1 : db D1) (s2 : db D2) (req : main.request),
    fst (exec D1 (store_call req) s1) = fst (exec D2 (store_call req) s2) ->
    response (endpoint D1 req s1) = response (endpoint D2 req s2).
Proof.
  intros D1 D2 s1 s2 req. unfold endpoint, response.
  destruct req as [[skip |] [limit |] | employee_id | employee | employee_id
                  | employee_id column new_value];
    simpl;
    match goal with
    | |- fst (exec D1 ?c s1) = _ -> _ =>
        destruct (exec D1 c s1) as [a1 t1];
        destruct (exec D2 c s2) as [a2 t2]
    end;
    simpl; intros H; subst a2; destruct a1 as [x | msg];
    try destruct x; reflexivity.
Qed.

(** X4 on two tables that both hold employee 1 as ("Ann", "Eng"). *)
Lemma response_depends_on_answer_only_two_tables :
  response (endpoint SpecStore.impl (main.GET_employee 1) (Some two_rows))
  = response (endpoint SpecStore.impl (main.GET_employee 1) (Some three_rows)).
Proof.
  apply (response_depends_on_answer_only SpecStore.impl SpecStore.impl
           (Some two_rows) (Some three_rows) (main.GET_employee 1)).
  reflexivity.
Defined.
